(** * API Integration Proxy: the provider handlers, the credential check
      and the [/integrate/{provider}] endpoint of [main.py]. *)

From Stdlib Require Import ZArith Floats.
From stdpp Require Import base option strings gmap fin_maps pretty.

Set Warnings "-register-all,-inexact-float".
Local Open Scope string_scope.

(** ** Python values

    The values that travel through [Dict[str, Any]] bags: what a JSON body
    decodes to and what the handlers' dict literals contain. *)

Inductive PyVal : Type :=
  | VNone
  | VBool (b : bool)
  | VInt (z : Z)
  | VFloat (f : float)
  | VStr (s : string)
  | VList (l : list PyVal)
  | VDict (d : gmap string PyVal).

(** Python's truth value testing ([bool(v)], [not v], [if v:]). *)
Definition truthy (v : PyVal) : bool :=
  match v with
  | VNone => false
  | VBool b => b
  | VInt z => negb (z =? 0)%Z
  | VFloat f => negb (f =? 0)%float
  | VStr s => negb (String.eqb s "")
  | VList l => match l with [] => false | _ => true end
  | VDict d => negb (bool_decide (d = ∅))
  end.

(** [a and b]: the left operand when it is falsy, else the right one. *)
Definition py_and (a b : PyVal) : PyVal := if truthy a then b else a.

(** [v is not None]. *)
Definition is_not_None (v : PyVal) : PyVal :=
  VBool (match v with VNone => false | _ => true end).

(** A dict display [{k1: v1, ..., kn: vn}]: the keys are inserted from left
    to right, a repeated key keeps its last value. *)
Definition py_dict (items : list (string * PyVal)) : gmap string PyVal :=
  fold_left (fun d kv => <[kv.1 := kv.2]> d) items ∅.

(** [parameters.get(key, default)]. *)
Definition get_default (d : gmap string PyVal) (key : string) (dflt : PyVal) : PyVal :=
  default dflt (d !! key).

(** [credentials.get(key)] on a [Dict[str, str]]: the string, or [None]. *)
Definition get_str (d : gmap string string) (key : string) : PyVal :=
  from_option VStr VNone (d !! key).

(** ** Enumerations and request/response models *)

Inductive Provider := SALESFORCE | UPS.

Inductive AuthType := PASSWORD | API_KEY | OAUTH.

#[global] Instance Provider_eq_dec : EqDecision Provider.
Proof. solve_decision. Defined.

#[global] Instance Provider_countable : Countable Provider.
Proof.
  refine (inj_countable'
            (fun p => match p with SALESFORCE => false | UPS => true end)
            (fun b => if b then UPS else SALESFORCE) _).
  by intros [].
Defined.

#[global] Instance AuthType_eq_dec : EqDecision AuthType.
Proof. solve_decision. Defined.

(** [provider.value] *)
Definition Provider_value (p : Provider) : string :=
  match p with
  | SALESFORCE => "salesforce"
  | UPS => "ups"
  end.

Module IntegrationRequest.
Record t := mk {
  action : string;
  parameters : gmap string PyVal;
  (* Optional[AuthType], API_KEY when the field is left out *)
  auth_type : option AuthType;
  (* Optional[Dict[str, str]], None when the field is left out *)
  auth_credentials : option (gmap string string)
}.
End IntegrationRequest.

Module IntegrationResponse.
Record t := mk {
  status : string;
  data : gmap string PyVal;
  provider : string;
  action : string
}.
End IntegrationResponse.

(** ** Effects: exceptions and the observable trace of a coroutine *)

(** The exceptions the endpoint raises: FastAPI's [HTTPException], a subclass
    of [Exception]. *)
Inductive PyExc := HTTPException (status_code : N) (detail : string).

(** [str(e)] of an [HTTPException], as Starlette renders it:
    ["<status_code>: <detail>"]. *)
Definition exc_str (e : PyExc) : string :=
  match e with
  | HTTPException status_code detail => pretty status_code ++ ": " ++ detail
  end.

(** What a run leaves behind: the simulated delays awaited (milliseconds) and
    the calls made to the credential check. *)
Inductive Event :=
  | EvSleep (ms : N)
  | EvValidate (auth_type : option AuthType) (credentials : gmap string string).

Inductive Outcome (A : Type) :=
  | Return (a : A)
  | Raise (e : PyExc).
Arguments Return {A} a.
Arguments Raise {A} e.

Definition Async (A : Type) : Type := list Event -> Outcome A * list Event.

Definition ret {A} (a : A) : Async A := fun tr => (Return a, tr).

Definition raise {A} (e : PyExc) : Async A := fun tr => (Raise e, tr).

Definition bind {A B} (m : Async A) (k : A -> Async B) : Async B :=
  fun tr =>
    match m tr with
    | (Return a, tr') => k a tr'
    | (Raise e, tr') => (Raise e, tr')
    end.

(** [try: body except Exception as e: handler(e)] *)
Definition try_except {A} (body : Async A) (handler : PyExc -> Async A) : Async A :=
  fun tr =>
    match body tr with
    | (Return a, tr') => (Return a, tr')
    | (Raise e, tr') => handler e tr'
    end.

Definition emit (ev : Event) : Async unit := fun tr => (Return tt, (tr ++ [ev])%list).

(** [await asyncio.sleep(ms / 1000)] *)
Definition sleep (ms : N) : Async unit := emit (EvSleep ms).

Declare Scope async_scope.
Delimit Scope async_scope with async.
Notation "x <- m ;; k" := (bind m (fun x => k))
  (at level 100, m at next level, right associativity) : async_scope.
Notation "m ;;; k" := (bind m (fun _ => k))
  (at level 100, right associativity) : async_scope.
Local Open Scope async_scope.

(** ** Mocked API handlers *)

(** A handler class: its one static coroutine. *)
Record Handler := {
  handle_request :
    string -> gmap string PyVal -> option (gmap string string) ->
    Async (gmap string PyVal)
}.

Definition SalesforceHandler : Handler := {|
  handle_request action parameters auth_credentials :=
    sleep 500 ;;;
    if String.eqb action "create_lead" then
      ret (py_dict [
        ("id", VStr "00Q1234567890ABC");
        ("email", get_default parameters "email" (VStr "test@example.com"));
        ("company", get_default parameters "company" (VStr "Test Company"));
        ("status", VStr "New");
        ("created_date", VStr "2024-01-15T10:30:00Z")])
    else if String.eqb action "update_contact" then
      ret (py_dict [
        ("id", get_default parameters "contact_id" (VStr "0031234567890ABC"));
        ("email", get_default parameters "email" (VStr "updated@example.com"));
        ("phone", get_default parameters "phone" (VStr "+1234567890"));
        ("last_modified", VStr "2024-01-15T10:30:00Z")])
    else if String.eqb action "get_account" then
      ret (py_dict [
        ("id", get_default parameters "account_id" (VStr "0011234567890ABC"));
        ("name", VStr "Acme Corporation");
        ("industry", VStr "Technology");
        ("annual_revenue", VInt 1000000);
        ("employees", VInt 500)])
    else
      ret (py_dict [
        ("error", VStr ("Unknown Salesforce action: " ++ action));
        ("available_actions",
          VList [VStr "create_lead"; VStr "update_contact"; VStr "get_account"])])
|}.

Definition UPSHandler : Handler := {|
  handle_request action parameters auth_credentials :=
    sleep 800 ;;;
    if String.eqb action "track_package" then
      ret (py_dict [
        ("tracking_number",
          get_default parameters "tracking_number" (VStr "1Z999AA1234567890"));
        ("status", VStr "In Transit");
        ("location", VStr "Memphis, TN");
        ("estimated_delivery", VStr "2024-01-18T14:00:00Z");
        ("shipment_details", VDict (py_dict [
          ("weight", VStr "2.5 lbs");
          ("service", VStr "Ground");
          ("origin", VStr "New York, NY");
          ("destination", VStr "Los Angeles, CA")]))])
    else if String.eqb action "calculate_shipping" then
      ret (py_dict [
        ("origin_zip", get_default parameters "origin_zip" (VStr "10001"));
        ("destination_zip", get_default parameters "destination_zip" (VStr "90210"));
        ("weight", get_default parameters "weight" (VStr "5.0"));
        ("service", get_default parameters "service" (VStr "Ground"));
        ("rate", VFloat 15.99);
        ("delivery_days", VInt 5)])
    else if String.eqb action "create_shipment" then
      ret (py_dict [
        ("shipment_id", VStr "UPS123456789");
        ("tracking_number", VStr "1Z999AA1234567890");
        ("label_url", VStr "https://api.ups.com/labels/123456789.pdf");
        ("rate", VFloat 25.50);
        ("estimated_delivery", VStr "2024-01-18T14:00:00Z")])
    else
      ret (py_dict [
        ("error", VStr ("Unknown UPS action: " ++ action));
        ("available_actions",
          VList [VStr "track_package"; VStr "calculate_shipping"; VStr "create_shipment"])])
|}.

(** Provider registry *)
Definition PROVIDER_HANDLERS : gmap Provider Handler :=
  <[UPS := UPSHandler]> (<[SALESFORCE := SalesforceHandler]> ∅).

(** ** The credential check *)

Definition _validate_auth_credentials
    (auth_type : option AuthType) (credentials : gmap string string) : PyVal :=
  match auth_type with
  | Some PASSWORD => py_and (get_str credentials "username") (get_str credentials "password")
  | Some API_KEY => is_not_None (get_str credentials "api_key")
  | Some OAUTH => is_not_None (get_str credentials "access_token")
  | None => VBool false
  end.

(** The call as the endpoint makes it, leaving its mark on the trace. *)
Definition call_validate
    (auth_type : option AuthType) (credentials : gmap string string) : Async PyVal :=
  emit (EvValidate auth_type credentials) ;;;
  ret (_validate_auth_credentials auth_type credentials).

(** ** The endpoint [POST /integrate/{provider}] *)

(** Truth value of [request.auth_credentials]: [None] and [{}] are falsy. *)
Definition credentials_supplied (c : option (gmap string string)) : bool :=
  match c with
  | None => false
  | Some d => negb (bool_decide (d = ∅))
  end.

(** The detail of the 400 raised for a provider without a handler, with the
    enum members rendered as Python 3.12 does. *)
Definition unsupported_detail (provider : Provider) : string :=
  "Unsupported provider: "
  ++ match provider with
     | SALESFORCE => "Provider.SALESFORCE"
     | UPS => "Provider.UPS"
     end
  ++ ". Supported providers: [<Provider.SALESFORCE: 'salesforce'>, <Provider.UPS: 'ups'>]".

(** The body of the [try] block. The membership test
    [provider not in PROVIDER_HANDLERS] and the lookup that follows it are the
    two branches of one [match]. *)
Definition integrate_body
    (provider : Provider) (request : IntegrationRequest.t) : Async IntegrationResponse.t :=
  match PROVIDER_HANDLERS !! provider with
  | None => raise (HTTPException 400 (unsupported_detail provider))
  | Some handler_class =>
      (match IntegrationRequest.auth_credentials request with
       | Some credentials =>
           if credentials_supplied (Some credentials) then
             ok <- call_validate (IntegrationRequest.auth_type request) credentials ;;
             if negb (truthy ok) then
               raise (HTTPException 401 "Invalid authentication credentials")
             else ret tt
           else ret tt
       | None => ret tt
       end) ;;;
      result <- handle_request handler_class
                  (IntegrationRequest.action request)
                  (IntegrationRequest.parameters request)
                  (IntegrationRequest.auth_credentials request) ;;
      if bool_decide (is_Some (result !! "error")) then
        ret {| IntegrationResponse.status := "error";
               IntegrationResponse.data := result;
               IntegrationResponse.provider := Provider_value provider;
               IntegrationResponse.action := IntegrationRequest.action request |}
      else
        ret {| IntegrationResponse.status := "success";
               IntegrationResponse.data := result;
               IntegrationResponse.provider := Provider_value provider;
               IntegrationResponse.action := IntegrationRequest.action request |}
  end.

(** The [except Exception as e] clause. *)
Definition internal_error
    (provider : Provider) (request : IntegrationRequest.t) (e : PyExc)
    : IntegrationResponse.t :=
  {| IntegrationResponse.status := "error";
     IntegrationResponse.data := py_dict [
       ("error", VStr "Internal server error");
       ("message", VStr (exc_str e));
       ("provider", VStr (Provider_value provider));
       ("action", VStr (IntegrationRequest.action request))];
     IntegrationResponse.provider := Provider_value provider;
     IntegrationResponse.action := IntegrationRequest.action request |}.

Definition integrate_provider
    (provider : Provider) (request : IntegrationRequest.t) : Async IntegrationResponse.t :=
  try_except (integrate_body provider request)
             (fun e => ret (internal_error provider request e)).

(** ** Vocabulary of the statements *)

(** The actions a provider's handler has a branch for, in the order of its
    [if]/[elif] chain. *)
Definition known_actions (p : Provider) : list string :=
  match p with
  | SALESFORCE => ["create_lead"; "update_contact"; "get_account"]
  | UPS => ["track_package"; "calculate_shipping"; "create_shipment"]
  end.

(** The provider's name as the handlers' messages spell it. *)
Definition display_name (p : Provider) : string :=
  match p with
  | SALESFORCE => "Salesforce"
  | UPS => "UPS"
  end.

(** The simulated latency of a provider's handler, in milliseconds. *)
Definition delay (p : Provider) : N :=
  match p with
  | SALESFORCE => 500
  | UPS => 800
  end.

(** The response built from a handler's result by the tail of the [try]
    block. *)
Definition normalized
    (provider : Provider) (request : IntegrationRequest.t)
    (result : gmap string PyVal) : IntegrationResponse.t :=
  {| IntegrationResponse.status :=
       if bool_decide (is_Some (result !! "error")) then "error" else "success";
     IntegrationResponse.data := result;
     IntegrationResponse.provider := Provider_value provider;
     IntegrationResponse.action := IntegrationRequest.action request |}.

(** The three ways through the [try] block, told by the credentials. *)
Inductive BodyRun (provider : Provider) (request : IntegrationRequest.t)
    (tr : list Event) : Outcome IntegrationResponse.t -> list Event -> Prop :=
  | run_rejected credentials :
      IntegrationRequest.auth_credentials request = Some credentials ->
      credentials <> ∅ ->
      truthy (_validate_auth_credentials
                (IntegrationRequest.auth_type request) credentials) = false ->
      BodyRun provider request tr
        (Raise (HTTPException 401 "Invalid authentication credentials"))
        (tr ++ [EvValidate (IntegrationRequest.auth_type request) credentials])
  | run_validated credentials h result :
      IntegrationRequest.auth_credentials request = Some credentials ->
      credentials <> ∅ ->
      truthy (_validate_auth_credentials
                (IntegrationRequest.auth_type request) credentials) = true ->
      PROVIDER_HANDLERS !! provider = Some h ->
      fst (handle_request h (IntegrationRequest.action request)
             (IntegrationRequest.parameters request)
             (IntegrationRequest.auth_credentials request) []) = Return result ->
      BodyRun provider request tr
        (Return (normalized provider request result))
        (tr ++ [EvValidate (IntegrationRequest.auth_type request) credentials;
                EvSleep (delay provider)])
  | run_unchecked h result :
      credentials_supplied (IntegrationRequest.auth_credentials request) = false ->
      PROVIDER_HANDLERS !! provider = Some h ->
      fst (handle_request h (IntegrationRequest.action request)
             (IntegrationRequest.parameters request)
             (IntegrationRequest.auth_credentials request) []) = Return result ->
      BodyRun provider request tr
        (Return (normalized provider request result))
        (tr ++ [EvSleep (delay provider)]).

(** The request of the repository's test [test_invalid_auth_credentials]. *)
Definition invalid_auth_request : IntegrationRequest.t :=
  IntegrationRequest.mk "create_lead" (py_dict [("email", VStr "test@example.com")])
    (Some PASSWORD) (Some {["username" := "test_user"]}).

(** ** The informational endpoints *)

(** The members of [Provider] in definition order: what iterating the enum
    yields. *)
Definition Provider_members : list Provider := [SALESFORCE; UPS].

(** [Provider(value)], the lookup by value that decodes the path parameter:
    the member whose value is the string, [None] where Python raises
    [ValueError]. *)
Definition Provider_of_value (value : string) : option Provider :=
  List.find (fun p => String.eqb (Provider_value p) value) Provider_members.

(** [GET /] *)
Definition root : Async (gmap string PyVal) :=
  ret (py_dict [
    ("message", VStr "API Integration Proxy");
    ("version", VStr "1.0.0");
    ("available_providers",
      VList ((fun provider => VStr (Provider_value provider)) <$> Provider_members));
    ("endpoint", VStr "/integrate/{provider}");
    ("method", VStr "POST")]).

(** [GET /health] *)
Definition health_check : Async (gmap string PyVal) :=
  ret (py_dict [("status", VStr "healthy"); ("service", VStr "api-integration-proxy")]).

(** [GET /providers/{provider}/actions]. The [if]/[elif] has no [else]: a
    provider matching neither test would get [None]. *)
Definition get_provider_actions (provider : Provider) : Async PyVal :=
  if bool_decide (provider = SALESFORCE) then
    ret (VDict (py_dict [
      ("provider", VStr (Provider_value provider));
      ("actions", VList [
        VDict (py_dict [
          ("name", VStr "create_lead");
          ("description", VStr "Create a new lead in Salesforce");
          ("required_parameters", VList [VStr "email"; VStr "company"])]);
        VDict (py_dict [
          ("name", VStr "update_contact");
          ("description", VStr "Update an existing contact");
          ("required_parameters", VList [VStr "contact_id"; VStr "email"])]);
        VDict (py_dict [
          ("name", VStr "get_account");
          ("description", VStr "Retrieve account information");
          ("required_parameters", VList [VStr "account_id"])])])]))
  else if bool_decide (provider = UPS) then
    ret (VDict (py_dict [
      ("provider", VStr (Provider_value provider));
      ("actions", VList [
        VDict (py_dict [
          ("name", VStr "track_package");
          ("description", VStr "Track a package by tracking number");
          ("required_parameters", VList [VStr "tracking_number"])]);
        VDict (py_dict [
          ("name", VStr "calculate_shipping");
          ("description", VStr "Calculate shipping rates");
          ("required_parameters",
            VList [VStr "origin_zip"; VStr "destination_zip"; VStr "weight"])]);
        VDict (py_dict [
          ("name", VStr "create_shipment");
          ("description", VStr "Create a new shipment");
          ("required_parameters",
            VList [VStr "origin_address"; VStr "destination_address"; VStr "weight"])])])]))
  else ret VNone.

(** ** Reading responses *)

(** [v[key]] on a dict value. *)
Definition field (v : PyVal) (key : string) : option PyVal :=
  match v with
  | VDict d => d !! key
  | _ => None
  end.

(** The strings of a list value. *)
Definition strings_of (v : PyVal) : list string :=
  match v with
  | VList l => omap (fun x => match x with VStr s => Some s | _ => None end) l
  | _ => []
  end.

(** [[a["name"] for a in resp["actions"]]]: the action names a discovery
    response lists. *)
Definition action_names (resp : PyVal) : list string :=
  match field resp "actions" with
  | Some (VList l) =>
      omap (fun a => match field a "name" with Some (VStr s) => Some s | _ => None end) l
  | _ => []
  end.

(** The action names the discovery endpoint lists for a provider. *)
Definition advertised_actions (p : Provider) : list string :=
  match fst (get_provider_actions p []) with
  | Return resp => action_names resp
  | Raise _ => []
  end.

(** [[(a["name"], a["required_parameters"]) for a in resp["actions"]]] *)
Definition action_entries (resp : PyVal) : list (string * list string) :=
  match field resp "actions" with
  | Some (VList l) =>
      omap (fun a =>
              match field a "name", field a "required_parameters" with
              | Some (VStr s), Some ps => Some (s, strings_of ps)
              | _, _ => None
              end) l
  | _ => []
  end.

(** The names and required-parameter lists the discovery endpoint gives for
    a provider. *)
Definition advertised_entries (p : Provider) : list (string * list string) :=
  match fst (get_provider_actions p []) with
  | Return resp => action_entries resp
  | Raise _ => []
  end.

(** The required-parameter lists the discovery endpoint gives for an action
    of a provider:
    [[a["required_parameters"] for a in resp["actions"] if a["name"] == name]]. *)
Definition required_by (p : Provider) (name : string) : list (list string) :=
  snd <$> List.filter (fun e => String.eqb (fst e) name) (advertised_entries p).

(** Whether the endpoint lets the request through to the handler: no
    credentials supplied, or credentials on which the check is truthy. *)
Definition passes_authentication (request : IntegrationRequest.t) : bool :=
  match IntegrationRequest.auth_credentials request with
  | Some credentials =>
      if credentials_supplied (Some credentials) then
        truthy (_validate_auth_credentials
                  (IntegrationRequest.auth_type request) credentials)
      else true
  | None => true
  end.

(** The events a run of the endpoint adds to the trace. *)
Definition run_events (provider : Provider) (request : IntegrationRequest.t) : list Event :=
  match IntegrationRequest.auth_credentials request with
  | Some credentials =>
      if credentials_supplied (Some credentials) then
        EvValidate (IntegrationRequest.auth_type request) credentials
        :: (if passes_authentication request then [EvSleep (delay provider)] else [])
      else [EvSleep (delay provider)]
  | None => [EvSleep (delay provider)]
  end.

(** The parameter keys a handler branch reads. *)
Definition consumed_keys (p : Provider) (action : string) : list string :=
  match p with
  | SALESFORCE =>
      if String.eqb action "create_lead" then ["email"; "company"]
      else if String.eqb action "update_contact" then ["contact_id"; "email"; "phone"]
      else if String.eqb action "get_account" then ["account_id"]
      else []
  | UPS =>
      if String.eqb action "track_package" then ["tracking_number"]
      else if String.eqb action "calculate_shipping" then
        ["origin_zip"; "destination_zip"; "weight"; "service"]
      else []
  end.

(** The result key under which a handler returns a parameter it reads:
    [contact_id] and [account_id] come back as [id], the others under their
    own name. *)
Definition echo_key (key : string) : string :=
  if String.eqb key "contact_id" then "id"
  else if String.eqb key "account_id" then "id"
  else key.

(** The request with its credentials left out. *)
Definition without_credentials (request : IntegrationRequest.t) : IntegrationRequest.t :=
  IntegrationRequest.mk
    (IntegrationRequest.action request) (IntegrationRequest.parameters request)
    (IntegrationRequest.auth_type request) None.

(** ** The handlers on objects

    A call passes its dicts by reference and a dict display builds a new
    object. Here the handlers run on a store of dict objects, so that what a
    call reads, writes and creates is explicit. *)

Definition loc := positive.

Record Store := mkStore {
  (* the dict objects alive, by identity *)
  heap : gmap loc (gmap string PyVal);
  (* the trace, as in [Async] *)
  events : list Event
}.

Definition Py (A : Type) : Type := Store -> Outcome A * Store.

Definition py_ret {A} (a : A) : Py A := fun s => (Return a, s).

Definition py_bind {A B} (m : Py A) (k : A -> Py B) : Py B :=
  fun s =>
    match m s with
    | (Return a, s') => k a s'
    | (Raise e, s') => (Raise e, s')
    end.

Declare Scope py_scope.
Delimit Scope py_scope with py.
Notation "x <- m ;; k" := (py_bind m (fun x => k))
  (at level 100, m at next level, right associativity) : py_scope.
Notation "m ;;; k" := (py_bind m (fun _ => k))
  (at level 100, right associativity) : py_scope.

(** [await asyncio.sleep(ms / 1000)] *)
Definition py_sleep (ms : N) : Py unit :=
  fun s => (Return tt, mkStore (heap s) (events s ++ [EvSleep ms])%list).

(** [d.get(key, default)] on the dict object [d]. A reference held by a
    running program designates a live object; a dead one reads as an empty
    dict. *)
Definition dict_get (d : loc) (key : string) (dflt : PyVal) : Py PyVal :=
  fun s => (Return (get_default (default ∅ (heap s !! d)) key dflt), s).

(** A dict display: a new object, at an identity no live object has. *)
Definition new_dict (items : list (string * PyVal)) : Py loc :=
  fun s =>
    let l := fresh (dom (heap s)) in
    (Return l, mkStore (<[l := py_dict items]> (heap s)) (events s)).

Module ByRef.

(** A handler class, its coroutine taking and returning references. *)
Record Handler := {
  handle_request : string -> loc -> option loc -> Py loc
}.

Definition SalesforceHandler : Handler := {|
  handle_request action parameters auth_credentials :=
    (py_sleep 500 ;;;
     if String.eqb action "create_lead" then
       email <- dict_get parameters "email" (VStr "test@example.com") ;;
       company <- dict_get parameters "company" (VStr "Test Company") ;;
       new_dict [
         ("id", VStr "00Q1234567890ABC");
         ("email", email);
         ("company", company);
         ("status", VStr "New");
         ("created_date", VStr "2024-01-15T10:30:00Z")]
     else if String.eqb action "update_contact" then
       id <- dict_get parameters "contact_id" (VStr "0031234567890ABC") ;;
       email <- dict_get parameters "email" (VStr "updated@example.com") ;;
       phone <- dict_get parameters "phone" (VStr "+1234567890") ;;
       new_dict [
         ("id", id);
         ("email", email);
         ("phone", phone);
         ("last_modified", VStr "2024-01-15T10:30:00Z")]
     else if String.eqb action "get_account" then
       id <- dict_get parameters "account_id" (VStr "0011234567890ABC") ;;
       new_dict [
         ("id", id);
         ("name", VStr "Acme Corporation");
         ("industry", VStr "Technology");
         ("annual_revenue", VInt 1000000);
         ("employees", VInt 500)]
     else
       new_dict [
         ("error", VStr ("Unknown Salesforce action: " ++ action));
         ("available_actions",
           VList [VStr "create_lead"; VStr "update_contact"; VStr "get_account"])])%py
|}.

Definition UPSHandler : Handler := {|
  handle_request action parameters auth_credentials :=
    (py_sleep 800 ;;;
     if String.eqb action "track_package" then
       tracking_number <-
         dict_get parameters "tracking_number" (VStr "1Z999AA1234567890") ;;
       new_dict [
         ("tracking_number", tracking_number);
         ("status", VStr "In Transit");
         ("location", VStr "Memphis, TN");
         ("estimated_delivery", VStr "2024-01-18T14:00:00Z");
         ("shipment_details", VDict (py_dict [
           ("weight", VStr "2.5 lbs");
           ("service", VStr "Ground");
           ("origin", VStr "New York, NY");
           ("destination", VStr "Los Angeles, CA")]))]
     else if String.eqb action "calculate_shipping" then
       origin_zip <- dict_get parameters "origin_zip" (VStr "10001") ;;
       destination_zip <- dict_get parameters "destination_zip" (VStr "90210") ;;
       weight <- dict_get parameters "weight" (VStr "5.0") ;;
       service <- dict_get parameters "service" (VStr "Ground") ;;
       new_dict [
         ("origin_zip", origin_zip);
         ("destination_zip", destination_zip);
         ("weight", weight);
         ("service", service);
         ("rate", VFloat 15.99);
         ("delivery_days", VInt 5)]
     else if String.eqb action "create_shipment" then
       new_dict [
         ("shipment_id", VStr "UPS123456789");
         ("tracking_number", VStr "1Z999AA1234567890");
         ("label_url", VStr "https://api.ups.com/labels/123456789.pdf");
         ("rate", VFloat 25.50);
         ("estimated_delivery", VStr "2024-01-18T14:00:00Z")]
     else
       new_dict [
         ("error", VStr ("Unknown UPS action: " ++ action));
         ("available_actions",
           VList [VStr "track_package"; VStr "calculate_shipping";
                  VStr "create_shipment"])])%py
|}.

(** Provider registry *)
Definition PROVIDER_HANDLERS : gmap Provider Handler :=
  <[UPS := UPSHandler]> (<[SALESFORCE := SalesforceHandler]> ∅).

End ByRef.

(** * Properties *)

Example run_create_lead :
  fst (integrate_provider SALESFORCE
         (IntegrationRequest.mk "create_lead" ∅ (Some API_KEY) None) [])
  = Return (IntegrationResponse.mk "success"
      (py_dict [
        ("id", VStr "00Q1234567890ABC");
        ("email", VStr "test@example.com");
        ("company", VStr "Test Company");
        ("status", VStr "New");
        ("created_date", VStr "2024-01-15T10:30:00Z")])
      "salesforce" "create_lead").
Proof. vm_compute. reflexivity. Qed.

(** ** The registry *)

Lemma lookup_SALESFORCE : PROVIDER_HANDLERS !! SALESFORCE = Some SalesforceHandler.
Proof. unfold PROVIDER_HANDLERS. by rewrite lookup_insert_ne, lookup_insert_eq. Qed.

Lemma lookup_UPS : PROVIDER_HANDLERS !! UPS = Some UPSHandler.
Proof. unfold PROVIDER_HANDLERS. by rewrite lookup_insert_eq. Qed.

Lemma PROVIDER_HANDLERS_total (p : Provider) : is_Some (PROVIDER_HANDLERS !! p).
Proof. destruct p; [rewrite lookup_SALESFORCE | rewrite lookup_UPS]; eauto. Qed.

Lemma PROVIDER_HANDLERS_inv (p : Provider) (h : Handler) :
  PROVIDER_HANDLERS !! p = Some h ->
  (p = SALESFORCE /\ h = SalesforceHandler) \/ (p = UPS /\ h = UPSHandler).
Proof.
  destruct p; [rewrite lookup_SALESFORCE | rewrite lookup_UPS];
    intros [= <-]; auto.
Qed.

(** ** The handlers *)

(** Splits the goal along an [if String.eqb a "..."] chain on [a]. *)
Ltac eqb_cases a :=
  repeat match goal with
         | |- context [String.eqb a ?lit] =>
             let E := fresh "E" in
             destruct (String.eqb_spec a lit) as [E | E];
             [try subst a | ]
         end.

(** A handler only awaits its delay: it returns, and what it returns does
    not depend on what ran before it. *)
Lemma handle_request_run (p : Provider) (h : Handler) action parameters creds tr :
  PROVIDER_HANDLERS !! p = Some h ->
  handle_request h action parameters creds tr
  = (fst (handle_request h action parameters creds []), (tr ++ [EvSleep (delay p)])%list)
  /\ exists result, fst (handle_request h action parameters creds []) = Return result.
Proof.
  intros Hh. destruct (PROVIDER_HANDLERS_inv _ _ Hh) as [[-> ->] | [-> ->]];
    cbn; unfold bind, sleep, emit; cbn; eqb_cases action; cbn; eauto.
Qed.

(** Looks a literal key up in a dict display. *)
Ltac dict_lookup :=
  unfold py_dict; cbn [fold_left fst snd];
  repeat (rewrite lookup_insert_ne by discriminate);
  first [ apply lookup_insert_eq | apply lookup_empty ].

(** C3: for a provider P and an action A outside P's known actions, the
    handler registered for P returns (it does not raise) a dict whose [error]
    is "Unknown <provider> action: <A>" and whose [available_actions] is the
    list of P's three known actions in their declared order. *)
Theorem unknown_action_result
    (P : Provider) (A : string) (parameters : gmap string PyVal)
    (creds : option (gmap string string)) (tr : list Event) :
  A ∉ known_actions P ->
  exists h result tr',
    PROVIDER_HANDLERS !! P = Some h /\
    handle_request h A parameters creds tr = (Return result, tr') /\
    result !! "error" = Some (VStr ("Unknown " ++ display_name P ++ " action: " ++ A)) /\
    result !! "available_actions" = Some (VList (VStr <$> known_actions P)) /\
    length (known_actions P) = 3.
Proof.
  intros Hnot.
  destruct P; cbn in Hnot;
    [exists SalesforceHandler | exists UPSHandler];
    eexists; eexists;
    (split; [first [apply lookup_SALESFORCE | apply lookup_UPS] |]);
    cbn; unfold bind, sleep, emit; cbn;
    eqb_cases A; try (exfalso; apply Hnot; set_solver);
    (split; [reflexivity |]); repeat split; dict_lookup.
Qed.

Lemma unknown_action_result_witness :
  ("bogus_action" ∉ known_actions SALESFORCE) /\
  exists h result tr',
    PROVIDER_HANDLERS !! SALESFORCE = Some h /\
    handle_request h "bogus_action" ∅ None [] = (Return result, tr') /\
    result !! "error"
      = Some (VStr ("Unknown " ++ display_name SALESFORCE ++ " action: " ++ "bogus_action")) /\
    result !! "available_actions" = Some (VList (VStr <$> known_actions SALESFORCE)) /\
    length (known_actions SALESFORCE) = 3.
Proof.
  assert (H : "bogus_action" ∉ known_actions SALESFORCE).
  { cbn. intros Hin. repeat (apply elem_of_cons in Hin as [Hin | Hin]; [discriminate |]).
    by apply elem_of_nil in Hin. }
  split; [exact H | apply (unknown_action_result SALESFORCE "bogus_action" ∅ None [] H)].
Defined.

(** C4: for a provider P, an action A among P's known actions and any
    parameter bag, the handler registered for P returns a dict without an
    [error] key. *)
Theorem known_action_no_error
    (P : Provider) (A : string) (parameters : gmap string PyVal)
    (creds : option (gmap string string)) (tr : list Event) :
  A ∈ known_actions P ->
  exists h result tr',
    PROVIDER_HANDLERS !! P = Some h /\
    handle_request h A parameters creds tr = (Return result, tr') /\
    result !! "error" = None.
Proof.
  intros Hin.
  destruct P; cbn in Hin;
    repeat (apply elem_of_cons in Hin as [-> | Hin]);
    try (by apply elem_of_nil in Hin);
    [exists SalesforceHandler | exists SalesforceHandler | exists SalesforceHandler
    | exists UPSHandler | exists UPSHandler | exists UPSHandler];
    eexists; eexists;
    (split; [first [apply lookup_SALESFORCE | apply lookup_UPS] |]);
    (split; [reflexivity | dict_lookup]).
Qed.

Lemma known_action_no_error_witness :
  ("calculate_shipping" ∈ known_actions UPS) /\
  exists h result tr',
    PROVIDER_HANDLERS !! UPS = Some h /\
    handle_request h "calculate_shipping" ∅ None [] = (Return result, tr') /\
    result !! "error" = None.
Proof.
  assert (H : "calculate_shipping" ∈ known_actions UPS).
  { cbn. apply list_elem_of_further, list_elem_of_here. }
  split; [exact H | apply (known_action_no_error UPS "calculate_shipping" ∅ None [] H)].
Defined.

(** ** The credential check *)

Lemma truthy_get_str (credentials : gmap string string) (key : string) :
  truthy (get_str credentials key) = true <->
  exists s, credentials !! key = Some s /\ s <> "".
Proof.
  unfold get_str. destruct (credentials !! key) as [s |]; cbn.
  - destruct (String.eqb_spec s "") as [-> | Hs]; cbn; split.
    + discriminate.
    + intros (s & [= <-] & Hs). by destruct Hs.
    + eauto.
    + reflexivity.
  - split; [discriminate | intros (s & [=] & _)].
Qed.

Lemma is_not_None_get_str (credentials : gmap string string) (key : string) :
  is_not_None (get_str credentials key) = VBool (bool_decide (is_Some (credentials !! key))).
Proof.
  unfold get_str, is_not_None. destruct (credentials !! key) as [s |].
  - rewrite bool_decide_eq_true_2 by eauto. reflexivity.
  - rewrite bool_decide_eq_false_2 by (by intros [? [=]]). reflexivity.
Qed.

(** C5: on every credential bag the check passes (its result is truthy) for
    [password] iff [username] and [password] are both present with non-empty
    values; for [api_key] it is the boolean "the key [api_key] is present",
    whatever its value; for [oauth] the boolean "the key [access_token] is
    present"; for any other auth type it is [False]. *)
Theorem validate_auth_credentials_rules (credentials : gmap string string) :
  (truthy (_validate_auth_credentials (Some PASSWORD) credentials) = true <->
     (exists u, credentials !! "username" = Some u /\ u <> "") /\
     (exists p, credentials !! "password" = Some p /\ p <> "")) /\
  _validate_auth_credentials (Some API_KEY) credentials
    = VBool (bool_decide (is_Some (credentials !! "api_key"))) /\
  _validate_auth_credentials (Some OAUTH) credentials
    = VBool (bool_decide (is_Some (credentials !! "access_token"))) /\
  (forall auth_type : option AuthType,
     auth_type <> Some PASSWORD -> auth_type <> Some API_KEY -> auth_type <> Some OAUTH ->
     _validate_auth_credentials auth_type credentials = VBool false).
Proof.
  split; [| split; [| split]].
  - cbn. unfold py_and. split.
    + destruct (truthy (get_str credentials "username")) eqn:Hu.
      * intros Hp. split; by apply truthy_get_str.
      * intros Hf. rewrite Hf in Hu. discriminate.
    + intros [Hu Hp]. apply truthy_get_str in Hu. rewrite Hu.
      by apply truthy_get_str.
  - apply is_not_None_get_str.
  - apply is_not_None_get_str.
  - intros [[] |] H1 H2 H3; done.
Qed.

Example api_key_empty_string_passes :
  _validate_auth_credentials (Some API_KEY) {["api_key" := ""]} = VBool true.
Proof. reflexivity. Qed.

Example password_result_is_the_password :
  _validate_auth_credentials (Some PASSWORD) {["username" := "u"; "password" := "p"]}
  = VStr "p".
Proof. reflexivity. Qed.

(** ** The endpoint *)

Lemma credentials_supplied_Some (credentials : gmap string string) :
  credentials_supplied (Some credentials) = true <-> credentials <> ∅.
Proof.
  cbn. rewrite negb_true_iff, bool_decide_eq_false. reflexivity.
Qed.

(** The tail of the [try] block: the handler is awaited and its result
    wrapped. *)
Lemma handler_phase provider h request tr :
  PROVIDER_HANDLERS !! provider = Some h ->
  exists result,
    fst (handle_request h (IntegrationRequest.action request)
           (IntegrationRequest.parameters request)
           (IntegrationRequest.auth_credentials request) []) = Return result /\
    (result <- handle_request h
                 (IntegrationRequest.action request)
                 (IntegrationRequest.parameters request)
                 (IntegrationRequest.auth_credentials request) ;;
     if bool_decide (is_Some (result !! "error")) then
       ret {| IntegrationResponse.status := "error";
              IntegrationResponse.data := result;
              IntegrationResponse.provider := Provider_value provider;
              IntegrationResponse.action := IntegrationRequest.action request |}
     else
       ret {| IntegrationResponse.status := "success";
              IntegrationResponse.data := result;
              IntegrationResponse.provider := Provider_value provider;
              IntegrationResponse.action := IntegrationRequest.action request |}) tr
    = (Return (normalized provider request result), (tr ++ [EvSleep (delay provider)])%list).
Proof.
  intros Hh.
  destruct (handle_request_run provider h (IntegrationRequest.action request)
              (IntegrationRequest.parameters request)
              (IntegrationRequest.auth_credentials request) tr Hh)
    as [Hrun [result Hres]].
  exists result. split; [exact Hres |].
  unfold bind. rewrite Hrun, Hres. unfold normalized.
  by destruct (bool_decide (is_Some (result !! "error"))).
Qed.

Lemma integrate_body_run provider request tr :
  BodyRun provider request tr
    (fst (integrate_body provider request tr))
    (snd (integrate_body provider request tr)).
Proof.
  destruct (PROVIDER_HANDLERS_total provider) as [h Hh].
  destruct (integrate_body provider request tr) as [o tr'] eqn:Hbody. cbn [fst snd].
  unfold integrate_body in Hbody. rewrite Hh in Hbody.
  unfold bind at 1 in Hbody.
  destruct (IntegrationRequest.auth_credentials request) as [credentials |] eqn:Hc.
  - destruct (credentials_supplied (Some credentials)) eqn:Hs.
    + apply credentials_supplied_Some in Hs.
      unfold call_validate, bind at 1, bind at 1, emit, ret at 1 in Hbody.
      destruct (truthy (_validate_auth_credentials _ credentials)) eqn:Hv;
        cbn [negb] in Hbody.
      * unfold ret at 1 in Hbody.
        destruct (handler_phase provider h request
                    (tr ++ [EvValidate (IntegrationRequest.auth_type request) credentials])
                    Hh) as (result & Hres & Htail).
        rewrite Hc in Htail. rewrite Htail in Hbody. injection Hbody as <- <-.
        rewrite <- app_assoc. cbn [app].
        eapply run_validated; eauto.
      * unfold raise in Hbody. injection Hbody as <- <-.
        eapply run_rejected; eauto.
    + unfold ret at 1 in Hbody.
      destruct (handler_phase provider h request tr Hh) as (result & Hres & Htail).
      rewrite Hc in Htail. rewrite Htail in Hbody. injection Hbody as <- <-.
      eapply run_unchecked; eauto. by rewrite Hc.
  - unfold ret at 1 in Hbody.
    destruct (handler_phase provider h request tr Hh) as (result & Hres & Htail).
    rewrite Hc in Htail. rewrite Htail in Hbody. injection Hbody as <- <-.
    eapply run_unchecked; eauto. by rewrite Hc.
Qed.

(** Whatever the [try] block does, the endpoint returns a response: the
    [except] clause turns every exception into one. *)
Lemma integrate_provider_run provider request tr :
  integrate_provider provider request tr
  = match integrate_body provider request tr with
    | (Return env, tr') => (Return env, tr')
    | (Raise e, tr') => (Return (internal_error provider request e), tr')
    end.
Proof. reflexivity. Qed.

(** The handler registered for a provider returns one result per input. *)
Lemma handler_result_unique provider h1 h2 action parameters creds r1 r2 :
  PROVIDER_HANDLERS !! provider = Some h1 ->
  PROVIDER_HANDLERS !! provider = Some h2 ->
  fst (handle_request h1 action parameters creds []) = Return r1 ->
  fst (handle_request h2 action parameters creds []) = Return r2 ->
  r1 = r2.
Proof. intros H1 H2 E1 E2. rewrite H1 in H2. injection H2 as <-. congruence. Qed.

Lemma normalized_status provider request result :
  IntegrationResponse.status (normalized provider request result)
  = if bool_decide (is_Some (result !! "error")) then "error" else "success".
Proof. reflexivity. Qed.

(** C2: for every provider and request (action, parameters, auth type,
    credentials or none), the endpoint returns one response and does not
    raise; the response is built either from a handler result or by the
    [except] clause, and in both cases its [provider] and [action] are those
    of the request. *)
Theorem integrate_provider_always_responds
    (provider : Provider) (request : IntegrationRequest.t) (tr : list Event) :
  exists env tr',
    integrate_provider provider request tr = (Return env, tr') /\
    ((exists result, env = normalized provider request result) \/
     (exists e, env = internal_error provider request e)) /\
    IntegrationResponse.provider env = Provider_value provider /\
    IntegrationResponse.action env = IntegrationRequest.action request.
Proof.
  pose proof (integrate_body_run provider request tr) as Hrun.
  rewrite integrate_provider_run.
  destruct (integrate_body provider request tr) as [o tr'].
  cbn [fst snd] in Hrun. destruct Hrun; eexists; eexists;
    (split; [reflexivity |]); (split; [eauto | split; reflexivity]).
Qed.

(** C6: the response's [status] is "error" iff the [try] block raised or the
    handler's result has an [error] key; otherwise it is "success", and [data]
    is the handler's result itself. *)
Theorem status_error_iff
    (provider : Provider) (request : IntegrationRequest.t) (tr : list Event) :
  exists env tr',
    integrate_provider provider request tr = (Return env, tr') /\
    (IntegrationResponse.status env = "error" <->
       (exists e tr0, integrate_body provider request tr = (Raise e, tr0)) \/
       (exists h result,
          PROVIDER_HANDLERS !! provider = Some h /\
          fst (handle_request h (IntegrationRequest.action request)
                 (IntegrationRequest.parameters request)
                 (IntegrationRequest.auth_credentials request) []) = Return result /\
          is_Some (result !! "error"))) /\
    (IntegrationResponse.status env <> "error" ->
       IntegrationResponse.status env = "success" /\
       exists h result,
         PROVIDER_HANDLERS !! provider = Some h /\
         fst (handle_request h (IntegrationRequest.action request)
                (IntegrationRequest.parameters request)
                (IntegrationRequest.auth_credentials request) []) = Return result /\
         IntegrationResponse.data env = result).
Proof.
  pose proof (integrate_body_run provider request tr) as Hrun.
  rewrite integrate_provider_run.
  destruct (integrate_body provider request tr) as [o tr'].
  cbn [fst snd] in Hrun.
  destruct Hrun as [credentials Hc Hne Hv
                   | credentials h result Hc Hne Hv Hh Hres
                   | h result Hs Hh Hres];
    eexists; eexists; (split; [reflexivity |]).
  - split; [split; eauto | intros Hst; by destruct Hst].
  - rewrite normalized_status. split; [split |].
    + intros Hst. right. exists h, result. repeat split; try done.
      destruct (bool_decide (is_Some (result !! "error"))) eqn:Hd; [| discriminate].
      by apply bool_decide_eq_true in Hd.
    + intros [(e & tr0 & [=]) | (h' & result' & Hh' & Hres' & Herr)].
      rewrite (handler_result_unique _ _ _ _ _ _ _ _ Hh Hh' Hres Hres').
      by rewrite bool_decide_eq_true_2.
    + intros Hst. destruct (bool_decide (is_Some (result !! "error"))); [done |].
      split; [reflexivity | exists h, result; auto].
  - rewrite normalized_status. split; [split |].
    + intros Hst. right. exists h, result. repeat split; try done.
      destruct (bool_decide (is_Some (result !! "error"))) eqn:Hd; [| discriminate].
      by apply bool_decide_eq_true in Hd.
    + intros [(e & tr0 & [=]) | (h' & result' & Hh' & Hres' & Herr)].
      rewrite (handler_result_unique _ _ _ _ _ _ _ _ Hh Hh' Hres Hres').
      by rewrite bool_decide_eq_true_2.
    + intros Hst. destruct (bool_decide (is_Some (result !! "error"))); [done |].
      split; [reflexivity | exists h, result; auto].
Qed.

(** C7: on every parameter bag the CRM handler's [create_lead] result takes
    [email] and [company] from the bag when the key is there and the canned
    defaults otherwise, has [status] "New" and no [error] key; and the request
    create_lead with email "a@b.com" and company "Acme" is answered with
    status "success" and those three values in [data]. *)
Theorem create_lead_result :
  (forall (parameters : gmap string PyVal) (creds : option (gmap string string))
          (tr : list Event),
     exists result tr',
       handle_request SalesforceHandler "create_lead" parameters creds tr
         = (Return result, tr') /\
       result !! "email" = Some (default (VStr "test@example.com") (parameters !! "email")) /\
       result !! "company" = Some (default (VStr "Test Company") (parameters !! "company")) /\
       result !! "status" = Some (VStr "New") /\
       result !! "error" = None) /\
  PROVIDER_HANDLERS !! SALESFORCE = Some SalesforceHandler /\
  (forall tr : list Event,
     exists env tr',
       integrate_provider SALESFORCE
         (IntegrationRequest.mk "create_lead"
            (py_dict [("email", VStr "a@b.com"); ("company", VStr "Acme")])
            (Some API_KEY) None) tr
         = (Return env, tr') /\
       IntegrationResponse.status env = "success" /\
       IntegrationResponse.data env !! "email" = Some (VStr "a@b.com") /\
       IntegrationResponse.data env !! "company" = Some (VStr "Acme") /\
       IntegrationResponse.data env !! "status" = Some (VStr "New")).
Proof.
  split; [| split].
  - intros parameters creds tr. eexists; eexists.
    split; [reflexivity |]. unfold get_default. repeat split; dict_lookup.
  - apply lookup_SALESFORCE.
  - intros tr. eexists; eexists. split; [| repeat split].
    + unfold integrate_provider, try_except, integrate_body.
      rewrite lookup_SALESFORCE. reflexivity.
    + reflexivity.
    + reflexivity.
    + reflexivity.
    + reflexivity.
Qed.

(** ** The handlers on objects *)

Lemma ByRef_lookup_SALESFORCE :
  ByRef.PROVIDER_HANDLERS !! SALESFORCE = Some ByRef.SalesforceHandler.
Proof. unfold ByRef.PROVIDER_HANDLERS. by rewrite lookup_insert_ne, lookup_insert_eq. Qed.

Lemma ByRef_lookup_UPS :
  ByRef.PROVIDER_HANDLERS !! UPS = Some ByRef.UPSHandler.
Proof. unfold ByRef.PROVIDER_HANDLERS. by rewrite lookup_insert_eq. Qed.

(** On a live parameter object, a handler on objects reads it, awaits its
    delay and creates one object: the dict that the handler on values
    returns for the object's contents. *)
Lemma ByRef_handle_request_run
    (P : Provider) (A : string) (parameters : loc) (creds : option loc)
    (cv : option (gmap string string)) (s : Store) (params : gmap string PyVal) :
  heap s !! parameters = Some params ->
  exists ho h result,
    ByRef.PROVIDER_HANDLERS !! P = Some ho /\
    PROVIDER_HANDLERS !! P = Some h /\
    fst (handle_request h A params cv []) = Return result /\
    ByRef.handle_request ho A parameters creds s
    = (Return (fresh (dom (heap s))),
       mkStore (<[fresh (dom (heap s)) := result]> (heap s))
               (events s ++ [EvSleep (delay P)])%list).
Proof.
  intros Hp.
  destruct P;
    [exists ByRef.SalesforceHandler, SalesforceHandler
    | exists ByRef.UPSHandler, UPSHandler];
    cbn; unfold py_bind, py_sleep, bind, sleep, emit; cbn;
    eqb_cases A; unfold dict_get, new_dict, get_default; cbn; rewrite ?Hp; cbn;
    eexists;
    (split; [first [apply ByRef_lookup_SALESFORCE | apply ByRef_lookup_UPS] |]);
    (split; [first [apply lookup_SALESFORCE | apply lookup_UPS] |]);
    (split; reflexivity).
Qed.

Lemma fresh_not_live (h : gmap loc (gmap string PyVal)) (l : loc) :
  is_Some (h !! l) -> l <> fresh (dom h).
Proof.
  intros Hl ->. apply elem_of_dom in Hl. by apply is_fresh in Hl.
Qed.

(** C8: a handler keeps no state between calls and changes none of its
    inputs. Called twice in a row on the same action and the same parameter
    object, the second call starting in the store the first one left, it
    returns two distinct new dicts with the same contents, which are the
    result of the handler for the contents of the parameter object; every
    object alive before the calls, the parameter object among them, is
    unchanged after them. *)
Theorem handle_request_twice
    (P : Provider) (A : string) (parameters : loc) (creds : option loc)
    (s : Store) (params : gmap string PyVal) :
  heap s !! parameters = Some params ->
  exists ho h result r1 r2 s1 s2,
    ByRef.PROVIDER_HANDLERS !! P = Some ho /\
    PROVIDER_HANDLERS !! P = Some h /\
    fst (handle_request h A params None []) = Return result /\
    ByRef.handle_request ho A parameters creds s = (Return r1, s1) /\
    ByRef.handle_request ho A parameters creds s1 = (Return r2, s2) /\
    heap s1 !! r1 = Some result /\
    heap s2 !! r2 = Some result /\
    heap s2 !! r1 = Some result /\
    r1 <> r2 /\
    heap s !! r1 = None /\
    (forall l, is_Some (heap s !! l) ->
       heap s1 !! l = heap s !! l /\ heap s2 !! l = heap s !! l) /\
    dom (heap s2) = {[r1; r2]} ∪ dom (heap s).
Proof.
  intros Hp.
  destruct (ByRef_handle_request_run P A parameters creds None s params Hp)
    as (ho & h & result & Hho & Hh & Hres & Hrun1).
  set (r1 := fresh (dom (heap s))) in *.
  assert (Hr1 : heap s !! r1 = None).
  { apply not_elem_of_dom. apply is_fresh. }
  assert (Hpr : r1 <> parameters) by (intros ->; congruence).
  destruct (ByRef_handle_request_run P A parameters creds None
              (mkStore (<[r1 := result]> (heap s))
                       (events s ++ [EvSleep (delay P)])%list) params)
    as (ho' & h' & result' & Hho' & Hh' & Hres' & Hrun2);
    [cbn [heap]; by rewrite lookup_insert_ne |].
  rewrite Hho in Hho'. injection Hho' as <-.
  rewrite Hh in Hh'. injection Hh' as <-.
  rewrite Hres in Hres'. injection Hres' as <-.
  cbn [heap events] in Hrun2.
  set (r2 := fresh (dom (<[r1 := result]> (heap s)))) in *.
  assert (Hr12 : r1 <> r2).
  { apply fresh_not_live. rewrite lookup_insert_eq. eauto. }
  eexists ho, h, result, r1, r2, _, _.
  split; [exact Hho |]. split; [exact Hh |]. split; [exact Hres |].
  split; [exact Hrun1 |]. split; [exact Hrun2 |]. cbn [heap].
  split; [by rewrite lookup_insert_eq |].
  split; [by rewrite lookup_insert_eq |].
  split; [by rewrite lookup_insert_ne, lookup_insert_eq |].
  split; [exact Hr12 |]. split; [exact Hr1 |]. split.
  - intros l Hl.
    assert (Hl1 : l <> r1) by (intros ->; rewrite Hr1 in Hl; by destruct Hl).
    assert (Hl2 : l <> r2).
    { apply fresh_not_live. by rewrite lookup_insert_ne. }
    by rewrite !lookup_insert_ne.
  - rewrite !dom_insert_L. apply set_eq. intros x.
    rewrite !elem_of_union, !elem_of_singleton. tauto.
Qed.

Lemma handle_request_twice_witness :
  exists ho h result r1 r2 s1 s2,
    ByRef.PROVIDER_HANDLERS !! UPS = Some ho /\
    PROVIDER_HANDLERS !! UPS = Some h /\
    fst (handle_request h "track_package" (py_dict [("tracking_number", VStr "1Z1")])
           None []) = Return result /\
    ByRef.handle_request ho "track_package" 1%positive None
      (mkStore {[1%positive := py_dict [("tracking_number", VStr "1Z1")]]} [])
    = (Return r1, s1) /\
    ByRef.handle_request ho "track_package" 1%positive None s1 = (Return r2, s2) /\
    heap s1 !! r1 = Some result /\
    heap s2 !! r2 = Some result /\
    heap s2 !! r1 = Some result /\
    r1 <> r2 /\
    heap (mkStore {[1%positive := py_dict [("tracking_number", VStr "1Z1")]]} [])
      !! r1 = None /\
    (forall l,
       is_Some (heap (mkStore {[1%positive := py_dict [("tracking_number", VStr "1Z1")]]} [])
                !! l) ->
       heap s1 !! l
       = heap (mkStore {[1%positive := py_dict [("tracking_number", VStr "1Z1")]]} []) !! l /\
       heap s2 !! l
       = heap (mkStore {[1%positive := py_dict [("tracking_number", VStr "1Z1")]]} []) !! l) /\
    dom (heap s2)
    = {[r1; r2]}
      ∪ dom (heap (mkStore {[1%positive := py_dict [("tracking_number", VStr "1Z1")]]} [])).
Proof.
  apply (handle_request_twice UPS "track_package" 1%positive None
           (mkStore {[1%positive := py_dict [("tracking_number", VStr "1Z1")]]} [])
           (py_dict [("tracking_number", VStr "1Z1")])).
  cbn [heap]. apply lookup_singleton_eq.
Defined.

(** C9: when the request carries no credentials, or an empty credential
    dict, the endpoint awaits the handler and wraps its result, whatever the
    auth type; the run adds the handler's delay to the trace and nothing
    else, so the credential check is not called. *)
Theorem no_credentials_no_validation
    (provider : Provider) (request : IntegrationRequest.t) (tr : list Event) :
  IntegrationRequest.auth_credentials request = None \/
  IntegrationRequest.auth_credentials request = Some ∅ ->
  exists h result,
    PROVIDER_HANDLERS !! provider = Some h /\
    handle_request h (IntegrationRequest.action request)
      (IntegrationRequest.parameters request)
      (IntegrationRequest.auth_credentials request) tr
    = (Return result, (tr ++ [EvSleep (delay provider)])%list) /\
    integrate_provider provider request tr
    = (Return (normalized provider request result),
       (tr ++ [EvSleep (delay provider)])%list) /\
    forall auth_type credentials,
      EvValidate auth_type credentials ∉ [EvSleep (delay provider)].
Proof.
  intros Hcreds.
  pose proof (integrate_body_run provider request tr) as Hrun.
  rewrite integrate_provider_run.
  destruct (integrate_body provider request tr) as [o tr'].
  cbn [fst snd] in Hrun.
  destruct Hrun as [credentials Hc Hne Hv
                   | credentials h result Hc Hne Hv Hh Hres
                   | h result Hs Hh Hres].
  - destruct Hcreds as [Hn | He]; rewrite Hc in *; congruence.
  - destruct Hcreds as [Hn | He]; rewrite Hc in *; congruence.
  - exists h, result. split; [exact Hh |]. split; [| split; [reflexivity |]].
    + destruct (handle_request_run provider h (IntegrationRequest.action request)
                  (IntegrationRequest.parameters request)
                  (IntegrationRequest.auth_credentials request) tr Hh) as [H1 _].
      rewrite H1, Hres. reflexivity.
    + intros auth_type credentials Hin.
      apply elem_of_cons in Hin as [[=] | Hin]. by apply elem_of_nil in Hin.
Qed.

Lemma no_credentials_no_validation_witness :
  exists h result,
    PROVIDER_HANDLERS !! UPS = Some h /\
    handle_request h "track_package" ∅ (Some ∅) []
    = (Return result, ([] ++ [EvSleep (delay UPS)])%list) /\
    integrate_provider UPS
      (IntegrationRequest.mk "track_package" ∅ (Some PASSWORD) (Some ∅)) []
    = (Return (normalized UPS
                 (IntegrationRequest.mk "track_package" ∅ (Some PASSWORD) (Some ∅))
                 result),
       ([] ++ [EvSleep (delay UPS)])%list) /\
    forall auth_type credentials,
      EvValidate auth_type credentials ∉ [EvSleep (delay UPS)].
Proof.
  apply (no_credentials_no_validation UPS
           (IntegrationRequest.mk "track_package" ∅ (Some PASSWORD) (Some ∅)) []).
  right. reflexivity.
Defined.

(** Every failed credential check ends in a returned response: the 401 raised
    inside the [try] block is an [Exception], and the [except] clause wraps
    it. *)
Lemma auth_failure_caught provider request credentials tr :
  IntegrationRequest.auth_credentials request = Some credentials ->
  credentials <> ∅ ->
  truthy (_validate_auth_credentials
            (IntegrationRequest.auth_type request) credentials) = false ->
  integrate_provider provider request tr
  = (Return (internal_error provider request
               (HTTPException 401 "Invalid authentication credentials")),
     (tr ++ [EvValidate (IntegrationRequest.auth_type request) credentials])%list).
Proof.
  intros Hc Hne Hv.
  pose proof (integrate_body_run provider request tr) as Hrun.
  rewrite integrate_provider_run.
  destruct (integrate_body provider request tr) as [o tr'].
  cbn [fst snd] in Hrun.
  destruct Hrun as [credentials' Hc' Hne' Hv'
                   | credentials' h result Hc' Hne' Hv' Hh Hres
                   | h result Hs Hh Hres].
  - rewrite Hc in Hc'. by injection Hc' as <-.
  - rewrite Hc in Hc'. injection Hc' as <-. congruence.
  - rewrite Hc in Hs. apply credentials_supplied_Some in Hne. congruence.
Qed.

(** C10: with a null auth type and a non-empty credential dict, the
    credential check takes its last branch and returns [False] whatever the
    dict holds; the [try] block raises the 401 of a failed authentication
    right after that call, before any handler runs, and the endpoint answers
    as it does for every failed credential check. *)
Theorem null_auth_type_fails_authentication
    (provider : Provider) (request : IntegrationRequest.t)
    (credentials : gmap string string) (tr : list Event) :
  IntegrationRequest.auth_type request = None ->
  IntegrationRequest.auth_credentials request = Some credentials ->
  credentials <> ∅ ->
  _validate_auth_credentials (IntegrationRequest.auth_type request) credentials
    = VBool false /\
  integrate_body provider request tr
    = (Raise (HTTPException 401 "Invalid authentication credentials"),
       (tr ++ [EvValidate None credentials])%list) /\
  integrate_provider provider request tr
    = (Return (internal_error provider request
                 (HTTPException 401 "Invalid authentication credentials")),
       (tr ++ [EvValidate None credentials])%list).
Proof.
  intros Hat Hc Hne. split; [by rewrite Hat | split].
  2: { rewrite (auth_failure_caught provider request credentials tr Hc Hne);
         by rewrite Hat. }
  pose proof (integrate_body_run provider request tr) as Hrun.
  destruct (integrate_body provider request tr) as [o tr'].
  cbn [fst snd] in Hrun.
  destruct Hrun as [credentials' Hc' Hne' Hv
                   | credentials' h result Hc' Hne' Hv Hh Hres
                   | h result Hs Hh Hres].
  - rewrite Hc in Hc'. injection Hc' as <-. by rewrite Hat.
  - rewrite Hat in Hv. discriminate.
  - rewrite Hc in Hs. apply credentials_supplied_Some in Hne. congruence.
Qed.

Lemma null_auth_type_fails_authentication_witness :
  _validate_auth_credentials
    (IntegrationRequest.auth_type
       (IntegrationRequest.mk "create_lead" ∅ None (Some {["api_key" := "k"]})))
    {["api_key" := "k"]}
    = VBool false /\
  integrate_body SALESFORCE
    (IntegrationRequest.mk "create_lead" ∅ None (Some {["api_key" := "k"]})) []
    = (Raise (HTTPException 401 "Invalid authentication credentials"),
       ([] ++ [EvValidate None {["api_key" := "k"]}])%list) /\
  integrate_provider SALESFORCE
    (IntegrationRequest.mk "create_lead" ∅ None (Some {["api_key" := "k"]})) []
    = (Return (internal_error SALESFORCE
                 (IntegrationRequest.mk "create_lead" ∅ None (Some {["api_key" := "k"]}))
                 (HTTPException 401 "Invalid authentication credentials")),
       ([] ++ [EvValidate None {["api_key" := "k"]}])%list).
Proof.
  apply (null_auth_type_fails_authentication SALESFORCE
           (IntegrationRequest.mk "create_lead" ∅ None (Some {["api_key" := "k"]}))
           {["api_key" := "k"]} []).
  - reflexivity.
  - reflexivity.
  - intros H. apply (f_equal (fun m : gmap string string => m !! "api_key")) in H.
    rewrite lookup_singleton_eq, lookup_empty in H. discriminate.
Defined.

(** C1: on the request with credentials [{username: "test_user"}] and auth
    type [password], and on the one with [{username: "u"}], the credential
    check fails and the endpoint does not raise: it returns a response of
    status "error" whose [data] is the "Internal server error" dict carrying
    the text of the 401. *)
Theorem auth_failure_returns_envelope :
  truthy (_validate_auth_credentials (Some PASSWORD) {["username" := "test_user"]}) = false /\
  integrate_provider SALESFORCE invalid_auth_request []
  = (Return (IntegrationResponse.mk "error"
               (py_dict [
                  ("error", VStr "Internal server error");
                  ("message", VStr "401: Invalid authentication credentials");
                  ("provider", VStr "salesforce");
                  ("action", VStr "create_lead")])
               "salesforce" "create_lead"),
     [EvValidate (Some PASSWORD) {["username" := "test_user"]}]) /\
  forall provider action parameters tr,
    exists env tr',
      integrate_provider provider
        (IntegrationRequest.mk action parameters (Some PASSWORD)
           (Some {["username" := "u"]})) tr
      = (Return env, tr') /\
      IntegrationResponse.status env = "error" /\
      IntegrationResponse.data env !! "error" = Some (VStr "Internal server error").
Proof.
  assert (Hne : forall u : string, ({["username" := u]} : gmap string string) <> ∅).
  { intros u H. apply (f_equal (fun m : gmap string string => m !! "username")) in H.
    rewrite lookup_singleton_eq, lookup_empty in H. discriminate. }
  split; [reflexivity | split].
  - rewrite (auth_failure_caught SALESFORCE invalid_auth_request
               {["username" := "test_user"]} []); [reflexivity | reflexivity | apply Hne | reflexivity].
  - intros provider action parameters tr. eexists; eexists. split.
    + apply (auth_failure_caught provider _ {["username" := "u"]} tr);
        [reflexivity | apply Hne | reflexivity].
    + split; [reflexivity |].
      unfold internal_error; cbn [IntegrationResponse.data]. dict_lookup.
Qed.

(** * Further properties *)

(** ** Discovery and the handlers *)

Lemma get_provider_actions_run (P : Provider) (tr : list Event) :
  exists resp,
    get_provider_actions P tr = (Return resp, tr) /\
    field resp "provider" = Some (VStr (Provider_value P)) /\
    action_names resp = known_actions P.
Proof.
  destruct P; eexists; (split; [reflexivity |]); split; vm_compute; reflexivity.
Qed.

Lemma not_known_SALESFORCE (A : string) :
  A ∉ known_actions SALESFORCE <->
  A <> "create_lead" /\ A <> "update_contact" /\ A <> "get_account".
Proof. cbn. rewrite !not_elem_of_cons. pose proof (not_elem_of_nil A). tauto. Qed.

Lemma not_known_UPS (A : string) :
  A ∉ known_actions UPS <->
  A <> "track_package" /\ A <> "calculate_shipping" /\ A <> "create_shipment".
Proof. cbn. rewrite !not_elem_of_cons. pose proof (not_elem_of_nil A). tauto. Qed.

(** The result of the handler registered for [P]: the unknown-action dict
    exactly on the actions outside [known_actions P]. *)
Lemma handler_result_cases P h A parameters creds :
  PROVIDER_HANDLERS !! P = Some h ->
  exists result,
    fst (handle_request h A parameters creds []) = Return result /\
    (((A ∈ known_actions P) /\ result !! "error" = None) \/
     ((A ∉ known_actions P) /\
      result = py_dict [
        ("error", VStr ("Unknown " ++ display_name P ++ " action: " ++ A));
        ("available_actions", VList (VStr <$> known_actions P))])).
Proof.
  intros Hh. destruct (PROVIDER_HANDLERS_inv _ _ Hh) as [[-> ->] | [-> ->]];
    cbn -[known_actions]; unfold bind, sleep, emit; cbn -[known_actions];
    eqb_cases A; eexists; (split; [reflexivity |]);
    try (left; split; [cbn; set_solver | dict_lookup]);
    right; (split; [first [by apply not_known_SALESFORCE | by apply not_known_UPS]
                   | reflexivity]).
Qed.

Lemma handler_error_iff P h A parameters creds result :
  PROVIDER_HANDLERS !! P = Some h ->
  fst (handle_request h A parameters creds []) = Return result ->
  (is_Some (result !! "error") <-> A ∉ known_actions P).
Proof.
  intros Hh Hres.
  destruct (handler_result_cases P h A parameters creds Hh)
    as (result' & Hres' & Hcases).
  rewrite Hres in Hres'. injection Hres' as <-.
  destruct Hcases as [[Hin Herr] | [Hnot ->]].
  - rewrite Herr. split; [by intros [? [=]] | done].
  - split; [done | intros _]. eexists. dict_lookup.
Qed.

Lemma advertised_actions_known (P : Provider) :
  advertised_actions P = known_actions P.
Proof. by destruct P. Qed.

(** X1: the discovery endpoint answers for every provider with the provider's
    value and three actions, and the names it lists are, in the same order,
    the list the provider's handler returns as [available_actions] for an
    action that is not among them. *)
Theorem discovery_lists_available_actions
    (P : Provider) (A : string) (parameters : gmap string PyVal)
    (creds : option (gmap string string)) (tr : list Event) :
  A ∉ advertised_actions P ->
  exists resp h result,
    get_provider_actions P tr = (Return resp, tr) /\
    field resp "provider" = Some (VStr (Provider_value P)) /\
    action_names resp = advertised_actions P /\
    length (action_names resp) = 3 /\
    PROVIDER_HANDLERS !! P = Some h /\
    fst (handle_request h A parameters creds tr) = Return result /\
    result !! "available_actions" = Some (VList (VStr <$> action_names resp)).
Proof.
  rewrite advertised_actions_known. intros Hnot.
  destruct (get_provider_actions_run P tr) as (resp & Hrun & Hprov & Hnames).
  destruct (PROVIDER_HANDLERS_total P) as [h Hh].
  destruct (handler_result_cases P h A parameters creds Hh)
    as (result & Hres & [[Hin _] | [_ ->]]); [done |].
  exists resp, h. eexists. rewrite Hnames.
  destruct (handle_request_run P h A parameters creds tr Hh) as [-> _].
  repeat split; try done. by destruct P.
Qed.

Lemma discovery_lists_available_actions_witness :
  exists resp h result,
    get_provider_actions UPS [] = (Return resp, []) /\
    field resp "provider" = Some (VStr (Provider_value UPS)) /\
    action_names resp = advertised_actions UPS /\
    length (action_names resp) = 3 /\
    PROVIDER_HANDLERS !! UPS = Some h /\
    fst (handle_request h "create_lead" ∅ None []) = Return result /\
    result !! "available_actions" = Some (VList (VStr <$> action_names resp)).
Proof.
  apply (discovery_lists_available_actions UPS "create_lead" ∅ None []).
  vm_compute. intros Hin.
  repeat (apply elem_of_cons in Hin as [Hin | Hin]; [discriminate |]).
  by apply elem_of_nil in Hin.
Defined.

(** ** Authentication and the trace of a run *)

Lemma passes_authentication_unsupplied request :
  credentials_supplied (IntegrationRequest.auth_credentials request) = false ->
  passes_authentication request = true
  /\ forall provider, run_events provider request = [EvSleep (delay provider)].
Proof.
  unfold passes_authentication, run_events.
  destruct (IntegrationRequest.auth_credentials request) as [c |]; [| done].
  by intros ->.
Qed.

Lemma passes_authentication_supplied request credentials :
  IntegrationRequest.auth_credentials request = Some credentials ->
  credentials <> ∅ ->
  passes_authentication request
  = truthy (_validate_auth_credentials (IntegrationRequest.auth_type request) credentials)
  /\ forall provider,
       run_events provider request
       = EvValidate (IntegrationRequest.auth_type request) credentials
         :: (if passes_authentication request then [EvSleep (delay provider)] else []).
Proof.
  intros Hc Hne. apply credentials_supplied_Some in Hne.
  unfold run_events, passes_authentication. rewrite Hc, Hne. done.
Qed.

(** A run of the endpoint on a request that passes authentication. *)
Lemma integrate_provider_authorized provider request tr :
  passes_authentication request = true ->
  exists h result,
    PROVIDER_HANDLERS !! provider = Some h /\
    fst (handle_request h (IntegrationRequest.action request)
           (IntegrationRequest.parameters request)
           (IntegrationRequest.auth_credentials request) []) = Return result /\
    integrate_provider provider request tr
    = (Return (normalized provider request result),
       (tr ++ run_events provider request)%list).
Proof.
  intros Hpass.
  pose proof (integrate_body_run provider request tr) as Hrun.
  rewrite integrate_provider_run.
  destruct (integrate_body provider request tr) as [o tr'].
  cbn [fst snd] in Hrun.
  destruct Hrun as [credentials Hc Hne Hv
                   | credentials h result Hc Hne Hv Hh Hres
                   | h result Hs Hh Hres].
  - destruct (passes_authentication_supplied request credentials Hc Hne) as [Hp _].
    congruence.
  - destruct (passes_authentication_supplied request credentials Hc Hne) as [Hp Hev].
    exists h, result. rewrite Hev, Hpass. auto.
  - destruct (passes_authentication_unsupplied request Hs) as [_ Hev].
    exists h, result. rewrite Hev. auto.
Qed.

Lemma run_events_cases provider request :
  (run_events provider request = [EvSleep (delay provider)]
   /\ passes_authentication request = true) \/
  (exists a c,
     run_events provider request = [EvValidate a c; EvSleep (delay provider)]
     /\ passes_authentication request = true) \/
  (exists a c,
     run_events provider request = [EvValidate a c]
     /\ passes_authentication request = false).
Proof.
  unfold run_events, passes_authentication.
  destruct (IntegrationRequest.auth_credentials request) as [c |]; [| by left].
  destruct (credentials_supplied (Some c)); [| by left].
  destruct (truthy _); right; [left | right]; eauto.
Qed.

(** X2: every run of the endpoint extends the trace by [run_events]: one
    call of the credential check when credentials are supplied, then one
    handler delay when the request passes authentication, and nothing else;
    so the handler is awaited iff the request passes authentication, and the
    check never comes after the handler. *)
Theorem integrate_provider_trace
    (provider : Provider) (request : IntegrationRequest.t) (tr : list Event) :
  snd (integrate_provider provider request tr)
  = (tr ++ run_events provider request)%list /\
  (EvSleep (delay provider) ∈ run_events provider request
   <-> passes_authentication request = true) /\
  (forall ms, EvSleep ms ∈ run_events provider request -> ms = delay provider) /\
  (forall a c evs, run_events provider request <> (EvSleep (delay provider) :: EvValidate a c :: evs)) /\
  length (run_events provider request) <= 2.
Proof.
  split.
  - pose proof (integrate_body_run provider request tr) as Hrun.
    rewrite integrate_provider_run.
    destruct (integrate_body provider request tr) as [o tr'].
    cbn [fst snd] in Hrun.
    destruct Hrun as [credentials Hc Hne Hv
                     | credentials h result Hc Hne Hv Hh Hres
                     | h result Hs Hh Hres]; cbn [snd].
    + destruct (passes_authentication_supplied request credentials Hc Hne) as [Hp Hev].
      by rewrite Hev, Hp, Hv.
    + destruct (passes_authentication_supplied request credentials Hc Hne) as [Hp Hev].
      by rewrite Hev, Hp, Hv.
    + destruct (passes_authentication_unsupplied request Hs) as [_ Hev].
      by rewrite Hev.
  - destruct (run_events_cases provider request)
      as [[-> ->] | [(a & c & -> & ->) | (a & c & -> & ->)]];
      (split; [| split; [| split]]).
    + split; [done | intros _; apply list_elem_of_here].
    + intros ms Hin. apply elem_of_cons in Hin as [[= ->] | Hin]; [done |].
      by apply elem_of_nil in Hin.
    + intros a c evs [=].
    + cbn. lia.
    + split; [done | intros _; apply list_elem_of_further, list_elem_of_here].
    + intros ms Hin. apply elem_of_cons in Hin as [[=] | Hin].
      apply elem_of_cons in Hin as [[= ->] | Hin]; [done |].
      by apply elem_of_nil in Hin.
    + intros a' c' evs [=].
    + cbn. lia.
    + split; [| done]. intros Hin. apply elem_of_cons in Hin as [[=] | Hin].
      by apply elem_of_nil in Hin.
    + intros ms Hin. apply elem_of_cons in Hin as [[=] | Hin].
      by apply elem_of_nil in Hin.
    + intros a' c' evs [=].
    + cbn. lia.
Qed.

(** ** What the caller reads in the response *)

Lemma handle_request_ignores_credentials P h A parameters creds1 creds2 tr :
  PROVIDER_HANDLERS !! P = Some h ->
  handle_request h A parameters creds1 tr = handle_request h A parameters creds2 tr.
Proof.
  intros Hh. by destruct (PROVIDER_HANDLERS_inv _ _ Hh) as [[-> ->] | [-> ->]].
Qed.

Lemma known_actions_disjoint (P Q : Provider) (A : string) :
  P <> Q -> A ∈ known_actions P -> A ∉ known_actions Q.
Proof.
  intros Hne Hin.
  destruct P, Q; try done; cbn in Hin;
    repeat (apply elem_of_cons in Hin as [-> | Hin]);
    try (by apply elem_of_nil in Hin);
    first [apply not_known_SALESFORCE | apply not_known_UPS]; done.
Qed.

(** X3: for a request that passes authentication, the response has status
    "success" exactly when the requested action is one the discovery endpoint
    lists for the provider, and status "error" exactly when it is not. *)
Theorem status_success_iff_advertised
    (provider : Provider) (request : IntegrationRequest.t) (tr : list Event) :
  passes_authentication request = true ->
  exists env tr',
    integrate_provider provider request tr = (Return env, tr') /\
    (IntegrationResponse.status env = "success"
     <-> IntegrationRequest.action request ∈ advertised_actions provider) /\
    (IntegrationResponse.status env = "error"
     <-> IntegrationRequest.action request ∉ advertised_actions provider).
Proof.
  intros Hpass. rewrite advertised_actions_known.
  destruct (integrate_provider_authorized provider request tr Hpass)
    as (h & result & Hh & Hres & ->).
  eexists; eexists. split; [reflexivity |]. rewrite normalized_status.
  pose proof (handler_error_iff _ _ _ _ _ _ Hh Hres) as Hiff.
  destruct (bool_decide (is_Some (result !! "error"))) eqn:Hd.
  - apply bool_decide_eq_true in Hd. apply Hiff in Hd.
    split; split; try done.
  - apply bool_decide_eq_false in Hd.
    assert (Hin : IntegrationRequest.action request ∈ known_actions provider).
    { destruct (decide (IntegrationRequest.action request ∈ known_actions provider));
        [done | by apply Hiff in n]. }
    split; split; try done.
Qed.

Lemma status_success_iff_advertised_witness :
  exists env tr',
    integrate_provider UPS
      (IntegrationRequest.mk "create_shipment" ∅ (Some OAUTH)
         (Some {["access_token" := ""]})) [] = (Return env, tr') /\
    (IntegrationResponse.status env = "success"
     <-> "create_shipment" ∈ advertised_actions UPS) /\
    (IntegrationResponse.status env = "error"
     <-> "create_shipment" ∉ advertised_actions UPS).
Proof.
  apply (status_success_iff_advertised UPS
           (IntegrationRequest.mk "create_shipment" ∅ (Some OAUTH)
              (Some {["access_token" := ""]})) []).
  vm_compute. reflexivity.
Defined.

(** X4: an action the discovery endpoint lists for one provider is unknown
    to the other: a request for it that passes authentication is answered
    with status "error" and the other provider's unknown-action message. *)
Theorem other_providers_action_is_unknown
    (P Q : Provider) (request : IntegrationRequest.t) (tr : list Event) :
  P <> Q ->
  IntegrationRequest.action request ∈ advertised_actions P ->
  passes_authentication request = true ->
  exists env tr',
    integrate_provider Q request tr = (Return env, tr') /\
    IntegrationResponse.status env = "error" /\
    IntegrationResponse.data env !! "error"
      = Some (VStr ("Unknown " ++ display_name Q ++ " action: "
                    ++ IntegrationRequest.action request)) /\
    IntegrationResponse.data env !! "available_actions"
      = Some (VList (VStr <$> advertised_actions Q)).
Proof.
  rewrite !advertised_actions_known. intros Hne Hin Hpass.
  pose proof (known_actions_disjoint P Q _ Hne Hin) as Hnot.
  destruct (integrate_provider_authorized Q request tr Hpass)
    as (h & result & Hh & Hres & ->).
  destruct (handler_result_cases Q h (IntegrationRequest.action request)
              (IntegrationRequest.parameters request)
              (IntegrationRequest.auth_credentials request) Hh)
    as (result' & Hres' & Hcases).
  rewrite Hres in Hres'. injection Hres' as <-.
  destruct Hcases as [[Hin' _] | [_ ->]]; [done |].
  eexists; eexists. split; [reflexivity |].
  repeat split; cbn [normalized IntegrationResponse.data]; dict_lookup.
Qed.

Lemma other_providers_action_is_unknown_witness :
  exists env tr',
    integrate_provider SALESFORCE
      (IntegrationRequest.mk "track_package" ∅ (Some API_KEY) None) []
    = (Return env, tr') /\
    IntegrationResponse.status env = "error" /\
    IntegrationResponse.data env !! "error"
      = Some (VStr ("Unknown " ++ display_name SALESFORCE ++ " action: "
                    ++ "track_package")) /\
    IntegrationResponse.data env !! "available_actions"
      = Some (VList (VStr <$> advertised_actions SALESFORCE)).
Proof.
  apply (other_providers_action_is_unknown UPS SALESFORCE
           (IntegrationRequest.mk "track_package" ∅ (Some API_KEY) None) []).
  - discriminate.
  - vm_compute. apply list_elem_of_here.
  - reflexivity.
Defined.

(** X5: credentials that pass authentication leave no mark on the response:
    it is the response to the same request sent without credentials. *)
Theorem credentials_do_not_change_response
    (provider : Provider) (request : IntegrationRequest.t) (tr : list Event) :
  passes_authentication request = true ->
  fst (integrate_provider provider request tr)
  = fst (integrate_provider provider (without_credentials request) tr).
Proof.
  intros Hpass.
  destruct (integrate_provider_authorized provider request tr Hpass)
    as (h & result & Hh & Hres & ->).
  destruct (integrate_provider_authorized provider (without_credentials request) tr
              eq_refl) as (h' & result' & Hh' & Hres' & ->).
  cbn [fst]. f_equal.
  rewrite Hh in Hh'. injection Hh' as <-.
  cbn in Hres'.
  rewrite (handle_request_ignores_credentials provider h _ _
             (IntegrationRequest.auth_credentials request) None [] Hh) in Hres.
  rewrite Hres in Hres'. by injection Hres' as <-.
Qed.

Lemma credentials_do_not_change_response_witness :
  fst (integrate_provider SALESFORCE
         (IntegrationRequest.mk "get_account" (py_dict [("account_id", VInt 7)])
            (Some PASSWORD) (Some {["username" := "u"; "password" := "p"]})) [])
  = fst (integrate_provider SALESFORCE
           (without_credentials
              (IntegrationRequest.mk "get_account" (py_dict [("account_id", VInt 7)])
                 (Some PASSWORD) (Some {["username" := "u"; "password" := "p"]}))) []).
Proof.
  apply (credentials_do_not_change_response SALESFORCE
           (IntegrationRequest.mk "get_account" (py_dict [("account_id", VInt 7)])
              (Some PASSWORD) (Some {["username" := "u"; "password" := "p"]})) []).
  vm_compute. reflexivity.
Defined.

(** X6: in every response of the endpoint, [status] is "error" iff [data]
    has an [error] key, and "success" iff it has none. *)
Theorem status_matches_data
    (provider : Provider) (request : IntegrationRequest.t) (tr : list Event) :
  exists env tr',
    integrate_provider provider request tr = (Return env, tr') /\
    (IntegrationResponse.status env = "error"
     <-> is_Some (IntegrationResponse.data env !! "error")) /\
    (IntegrationResponse.status env = "success"
     <-> IntegrationResponse.data env !! "error" = None).
Proof.
  pose proof (integrate_body_run provider request tr) as Hrun.
  rewrite integrate_provider_run.
  destruct (integrate_body provider request tr) as [o tr'].
  cbn [fst snd] in Hrun.
  assert (Hnorm : forall result,
            (IntegrationResponse.status (normalized provider request result) = "error"
             <-> is_Some (IntegrationResponse.data (normalized provider request result)
                          !! "error")) /\
            (IntegrationResponse.status (normalized provider request result) = "success"
             <-> IntegrationResponse.data (normalized provider request result)
                 !! "error" = None)).
  { intros result. rewrite normalized_status. cbn [normalized IntegrationResponse.data].
    destruct (bool_decide (is_Some (result !! "error"))) eqn:Hd.
    - apply bool_decide_eq_true in Hd. split; split; try done.
      intros Hn. rewrite Hn in Hd. by destruct Hd.
    - apply bool_decide_eq_false in Hd. split; split; try done.
      intros _. by apply eq_None_not_Some. }
  destruct Hrun; eexists; eexists; (split; [reflexivity |]); try apply Hnorm.
  assert (Herr : IntegrationResponse.data
                   (internal_error provider request
                      (HTTPException 401 "Invalid authentication credentials"))
                 !! "error" = Some (VStr "Internal server error")).
  { unfold internal_error; cbn [IntegrationResponse.data]. dict_lookup. }
  rewrite Herr. split; split; try done.
Qed.

(** ** What the handlers do with the parameters *)

(** X7: the keys of a handler's result depend on the provider and the action
    only, not on the parameters or the credentials passed along. *)
Theorem result_keys_fixed
    (P : Provider) (A : string) (parameters1 parameters2 : gmap string PyVal)
    (creds1 creds2 : option (gmap string string)) (tr1 tr2 : list Event) :
  exists h result1 result2,
    PROVIDER_HANDLERS !! P = Some h /\
    fst (handle_request h A parameters1 creds1 tr1) = Return result1 /\
    fst (handle_request h A parameters2 creds2 tr2) = Return result2 /\
    dom result1 = dom result2.
Proof.
  destruct P; [exists SalesforceHandler | exists UPSHandler];
    cbn; unfold bind, sleep, emit; cbn; eqb_cases A;
    eexists; eexists;
    (split; [first [apply lookup_SALESFORCE | apply lookup_UPS] |]);
    (split; [reflexivity |]); (split; [reflexivity |]);
    unfold py_dict; cbn [fold_left fst snd]; by rewrite !dom_insert_L.
Qed.

(** X8: a handler's result depends on the parameters only through the keys
    its branch reads: two bags that agree on them get the same result. *)
Theorem unread_parameters_ignored
    (P : Provider) (A : string) (parameters1 parameters2 : gmap string PyVal)
    (creds : option (gmap string string)) (tr : list Event) :
  (forall key, key ∈ consumed_keys P A -> parameters1 !! key = parameters2 !! key) ->
  exists h,
    PROVIDER_HANDLERS !! P = Some h /\
    handle_request h A parameters1 creds tr = handle_request h A parameters2 creds tr.
Proof.
  intros Hagree.
  destruct P; [exists SalesforceHandler | exists UPSHandler];
    (split; [first [apply lookup_SALESFORCE | apply lookup_UPS] |]);
    cbn in *; unfold bind, sleep, emit; cbn; eqb_cases A; cbn in Hagree;
    unfold get_default; try reflexivity;
    repeat match goal with
           | |- context [parameters1 !! ?k] =>
               rewrite (Hagree k) by (repeat first [apply list_elem_of_here
                                                   | apply list_elem_of_further])
           end; reflexivity.
Qed.

Lemma unread_parameters_ignored_witness :
  exists h,
    PROVIDER_HANDLERS !! UPS = Some h /\
    handle_request h "create_shipment"
      (py_dict [("origin_address", VStr "1 Main St"); ("weight", VInt 3)]) None []
    = handle_request h "create_shipment" ∅ None [].
Proof.
  apply (unread_parameters_ignored UPS "create_shipment"
           (py_dict [("origin_address", VStr "1 Main St"); ("weight", VInt 3)]) ∅ None []).
  intros key Hin. vm_compute in Hin. by apply elem_of_nil in Hin.
Defined.

(** X9: a parameter that a handler branch reads and that the bag holds comes
    back in the result unchanged, whatever its type and also when it is null,
    under its own key ([contact_id] and [account_id] under [id]). *)
Theorem read_parameter_echoed
    (P : Provider) (A : string) (parameters : gmap string PyVal)
    (creds : option (gmap string string)) (tr : list Event)
    (key : string) (v : PyVal) :
  key ∈ consumed_keys P A ->
  parameters !! key = Some v ->
  exists h result,
    PROVIDER_HANDLERS !! P = Some h /\
    fst (handle_request h A parameters creds tr) = Return result /\
    result !! echo_key key = Some v.
Proof.
  intros Hin Hv.
  destruct P; [exists SalesforceHandler | exists UPSHandler];
    cbn in *; unfold bind, sleep, emit; cbn; eqb_cases A; cbn in Hin;
    repeat (apply elem_of_cons in Hin as [-> | Hin]);
    try (by apply elem_of_nil in Hin);
    eexists;
    (split; [first [apply lookup_SALESFORCE | apply lookup_UPS] |]);
    (split; [reflexivity |]);
    unfold get_default; rewrite Hv; cbn [default echo_key String.eqb Ascii.eqb Bool.eqb];
    dict_lookup.
Qed.

Lemma read_parameter_echoed_witness :
  exists h result,
    PROVIDER_HANDLERS !! SALESFORCE = Some h /\
    fst (handle_request h "update_contact"
           (py_dict [("contact_id", VNone)]) None []) = Return result /\
    result !! echo_key "contact_id" = Some VNone.
Proof.
  apply (read_parameter_echoed SALESFORCE "update_contact"
           (py_dict [("contact_id", VNone)]) None [] "contact_id" VNone).
  - vm_compute. apply list_elem_of_here.
  - vm_compute. reflexivity.
Defined.

(** ** More on the credential check *)

(** X10: the check looks only at the keys of the auth type: credentials that
    pass still pass when further keys are added to them. *)
Theorem extra_credentials_keep_passing
    (auth_type : option AuthType) (credentials credentials' : gmap string string) :
  credentials ⊆ credentials' ->
  truthy (_validate_auth_credentials auth_type credentials) = true ->
  truthy (_validate_auth_credentials auth_type credentials') = true.
Proof.
  intros Hsub.
  assert (Hget : forall key, truthy (get_str credentials key) = true ->
                             truthy (get_str credentials' key) = true).
  { intros key. rewrite !truthy_get_str. intros (s & Hs & Hne).
    exists s. split; [| done]. by eapply lookup_weaken. }
  assert (Hsome : forall key, is_Some (credentials !! key) ->
                              is_Some (credentials' !! key)).
  { intros key [s Hs]. exists s. by eapply lookup_weaken. }
  destruct auth_type as [[] |]; unfold _validate_auth_credentials.
  - unfold py_and.
    destruct (truthy (get_str credentials "username")) eqn:Hu.
    + rewrite (Hget _ Hu). apply Hget.
    + intros Hf. rewrite Hf in Hu. discriminate.
  - rewrite !is_not_None_get_str. cbn [truthy].
    rewrite !bool_decide_eq_true. apply Hsome.
  - rewrite !is_not_None_get_str. cbn [truthy].
    rewrite !bool_decide_eq_true. apply Hsome.
  - done.
Qed.

Lemma extra_credentials_keep_passing_witness :
  truthy (_validate_auth_credentials (Some PASSWORD)
            (<["api_key" := ""]> {["username" := "u"; "password" := "p"]})) = true.
Proof.
  apply (extra_credentials_keep_passing (Some PASSWORD)
           {["username" := "u"; "password" := "p"]}
           (<["api_key" := ""]> {["username" := "u"; "password" := "p"]})).
  - apply insert_subseteq. vm_compute. reflexivity.
  - vm_compute. reflexivity.
Defined.

(** ** Providers *)

Lemma Provider_of_value_iff (value : string) (p : Provider) :
  Provider_of_value value = Some p <-> Provider_value p = value.
Proof.
  unfold Provider_of_value, Provider_members. cbn [List.find Provider_value].
  destruct (String.eqb_spec "salesforce" value) as [<- | H1].
  - destruct p; split; done.
  - destruct (String.eqb_spec "ups" value) as [<- | H2].
    + destruct p; split; done.
    + destruct p; split; done.
Qed.

(** X11: the lookup by value inverts [.value]: a string decodes to a
    provider exactly when it is that provider's value, so distinct providers
    have distinct values and any other string (another case, a provider that
    does not exist) is refused. *)
Theorem Provider_of_value_spec (value : string) (p : Provider) :
  (Provider_of_value value = Some p <-> Provider_value p = value) /\
  Provider_of_value (Provider_value p) = Some p /\
  (Provider_of_value value = None <-> forall q, Provider_value q <> value).
Proof.
  split; [apply Provider_of_value_iff | split; [by apply Provider_of_value_iff |]].
  split.
  - intros Hnone q Hq. apply Provider_of_value_iff in Hq. congruence.
  - intros Hall. destruct (Provider_of_value value) as [q |] eqn:Hq; [| done].
    apply Provider_of_value_iff in Hq. by destruct (Hall q).
Qed.

Example invalid_provider_refused : Provider_of_value "invalid_provider" = None.
Proof. reflexivity. Qed.

(** X12: the providers the root endpoint advertises are exactly the strings
    that decode to a provider with a registered handler, so every advertised
    provider can be routed and every routable provider is advertised. *)
Theorem root_advertises_routable_providers (tr : list Event) :
  exists info,
    root tr = (Return info, tr) /\
    forall value : string,
      value ∈ from_option strings_of [] (info !! "available_providers")
      <-> exists p h,
            Provider_of_value value = Some p /\ PROVIDER_HANDLERS !! p = Some h.
Proof.
  eexists. split; [reflexivity |].
  intros value.
  replace (from_option strings_of [] _) with ["salesforce"; "ups"] by (vm_compute; reflexivity).
  split.
  - intros Hin.
    apply elem_of_cons in Hin as [-> | Hin];
      [exists SALESFORCE, SalesforceHandler; split; [reflexivity | apply lookup_SALESFORCE] |].
    apply elem_of_cons in Hin as [-> | Hin];
      [exists UPS, UPSHandler; split; [reflexivity | apply lookup_UPS] |].
    by apply elem_of_nil in Hin.
  - intros (p & h & Hp & _).
    apply (proj1 (Provider_of_value_iff value p)) in Hp. subst value.
    destruct p; [apply list_elem_of_here | apply list_elem_of_further, list_elem_of_here].
Qed.

(** ** Discovery metadata and what the handlers read *)

Lemma advertised_entries_SALESFORCE :
  advertised_entries SALESFORCE
  = [("create_lead", ["email"; "company"]);
     ("update_contact", ["contact_id"; "email"]);
     ("get_account", ["account_id"])].
Proof. vm_compute. reflexivity. Qed.

Lemma advertised_entries_UPS :
  advertised_entries UPS
  = [("track_package", ["tracking_number"]);
     ("calculate_shipping", ["origin_zip"; "destination_zip"; "weight"]);
     ("create_shipment", ["origin_address"; "destination_address"; "weight"])].
Proof. vm_compute. reflexivity. Qed.

(** X13: every parameter the discovery endpoint lists as required for an
    action is one that the handler's branch for the action reads, with one
    exception: the three listed for [create_shipment], whose branch reads no
    parameter at all. *)
Theorem required_parameters_are_read
    (P : Provider) (A : string) (ps : list string) (key : string) :
  ps ∈ required_by P A ->
  key ∈ ps ->
  key ∈ consumed_keys P A \/
  (P = UPS /\ A = "create_shipment" /\ consumed_keys P A = []).
Proof.
  intros Hps Hkey. unfold required_by in Hps.
  destruct P;
    [rewrite advertised_entries_SALESFORCE in Hps
    | rewrite advertised_entries_UPS in Hps];
    cbn [List.filter fst] in Hps;
    repeat match type of Hps with
           | context [String.eqb ?l A] =>
               destruct (String.eqb_spec l A) as [<- | ?]
           end;
    cbn in Hps;
    repeat (apply elem_of_cons in Hps as [-> | Hps]);
    try (by apply elem_of_nil in Hps);
    try (right; repeat split; reflexivity);
    left;
    repeat (apply elem_of_cons in Hkey as [-> | Hkey]);
    try (by apply elem_of_nil in Hkey);
    vm_compute;
    repeat first [apply list_elem_of_here | apply list_elem_of_further].
Qed.

Lemma required_parameters_are_read_witness :
  "weight" ∈ consumed_keys UPS "calculate_shipping" \/
  (UPS = UPS /\ "calculate_shipping" = "create_shipment"
   /\ consumed_keys UPS "calculate_shipping" = []).
Proof.
  apply (required_parameters_are_read UPS "calculate_shipping"
           ["origin_zip"; "destination_zip"; "weight"] "weight").
  - vm_compute. apply list_elem_of_here.
  - apply list_elem_of_further, list_elem_of_further, list_elem_of_here.
Defined.
